(** * configureService: a declarative HTTP request factory

    A shallow embedding of [src/configureService.ts] and of the endpoint
    registry [src/services.ts], followed by the properties of the request
    factory.

    Conventions of the embedding.

    - JavaScript strings are modelled by [string]: one character per UTF-16
      code unit, restricted to the code units below 256 (the Latin-1 range,
      which contains no surrogate).
    - JavaScript numbers are modelled by [Z]: the integer-valued numbers of
      magnitude below 10^21, which print as decimal digits.
    - An object is the list of its own enumerable string-keyed properties,
      in the order [Object.entries] enumerates them.
    - A function that may throw, or a promise that may reject, returns an
      [Outcome]; [Unmodelled] marks behaviour of the platform that lies
      outside the fragment described here.
    - The platform objects [Headers] and [Request] are modelled by what the
      code passes to them: the sequence of [append] calls, and the
      constructor arguments. *)

From Stdlib Require Import String Ascii List ZArith NArith Lia Bool DecimalString.
Import ListNotations.

Local Open Scope list_scope.
Local Open Scope string_scope.

Local Set Warnings "-register-all".

(** ** Outcomes: normal completion, exception, outside the model *)

Inductive Outcome (A : Type) : Type :=
| Normal (a : A)
| Throw (e : string)
| Unmodelled (why : string).

Arguments Normal {A} a.
Arguments Throw {A} e.
Arguments Unmodelled {A} why.

Definition bind {A B : Type} (m : Outcome A) (k : A -> Outcome B) : Outcome B :=
  match m with
  | Normal a => k a
  | Throw e => Throw e
  | Unmodelled w => Unmodelled w
  end.

Notation "x <- m ;; k" := (bind m (fun x => k))
  (at level 61, m at next level, right associativity).

(** ** JavaScript values *)

Inductive JsVal : Type :=
| JUndefined
| JNull
| JBool (b : bool)
| JNum (n : Z)
| JStr (s : string)
| JArr (items : list JsVal)
| JObj (props : list (string * JsVal))
| JHost (cls : string).

(** Modelled from the spec: the type [AnyObjectT] is declared outside
    [src/]; the specification calls it a mapping, here from string keys to
    values. *)
Definition AnyObjectT : Type := list (string * JsVal).

(** [InputT] is [AnyObjectT | { body?, query? }]: in both cases an object. *)
Definition InputT : Type := AnyObjectT.

(** The empty object literal. *)
Definition emptyObject : JsVal := JObj [].

(** ** Characters and strings *)

Definition dquote : ascii := "034"%char.
Definition backslash : ascii := "092"%char.

Definition chr (c : ascii) : string := String c EmptyString.

Definition code (c : ascii) : N := N_of_ascii c.

Definition inRange (lo hi : N) (c : ascii) : bool :=
  (N.leb lo (code c) && N.leb (code c) hi)%bool.

Definition isDigit (c : ascii) : bool := inRange 48 57 c.
Definition isUpper (c : ascii) : bool := inRange 65 90 c.
Definition isLower (c : ascii) : bool := inRange 97 122 c.
Definition isAlnum (c : ascii) : bool := (isDigit c || isUpper c || isLower c)%bool.

(** Membership of a character in a string, used for small character sets. *)
Fixpoint charIn (c : ascii) (set : string) : bool :=
  match set with
  | EmptyString => false
  | String d rest => (Ascii.eqb c d || charIn c rest)%bool
  end.

(** The regular-expression class [\w]. *)
Definition isWordChar (c : ascii) : bool := (isAlnum c || Ascii.eqb c "_")%bool.

Definition isEmptyString (s : string) : bool :=
  match s with
  | EmptyString => true
  | String _ _ => false
  end.

Fixpoint dropChars (n : nat) (s : string) : string :=
  match n, s with
  | O, _ => s
  | S n', String _ rest => dropChars n' rest
  | S _, EmptyString => EmptyString
  end.

(** [splitFirst pat s]: the text before and after the first occurrence of
    [pat] in [s], when there is one. *)
Fixpoint splitFirst (pat s : string) : option (string * string) :=
  if String.prefix pat s then Some (EmptyString, dropChars (String.length pat) s)
  else match s with
       | EmptyString => None
       | String c rest =>
           match splitFirst pat rest with
           | Some (before, after) => Some (String c before, after)
           | None => None
           end
       end.

(** [s.includes(pat)]. *)
Definition includes (pat s : string) : bool :=
  match splitFirst pat s with
  | Some _ => true
  | None => false
  end.

(** ** Conversions of the language *)

(** [String(n)] for an integer-valued number. *)
Definition numberToString (n : Z) : string := NilZero.string_of_int (Z.to_int n).

(** [ToBoolean]. *)
Definition toBoolean (v : JsVal) : bool :=
  match v with
  | JUndefined | JNull => false
  | JBool b => b
  | JNum n => negb (Z.eqb n 0)
  | JStr s => negb (isEmptyString s)
  | JArr _ | JObj _ | JHost _ => true
  end.

(** [String(v)]. An array joins its elements with a comma, printing
    [undefined] and [null] elements as nothing. *)
Fixpoint jsToString (v : JsVal) : string :=
  match v with
  | JUndefined => "undefined"
  | JNull => "null"
  | JBool true => "true"
  | JBool false => "false"
  | JNum n => numberToString n
  | JStr s => s
  | JArr items =>
      String.concat ","
        (map (fun x => match x with
                       | JUndefined | JNull => EmptyString
                       | _ => jsToString x
                       end) items)
  | JObj _ => "[object Object]"
  | JHost cls => "[object " ++ cls ++ "]"
  end.

(** [a || b] on values. *)
Definition jsOr (a b : JsVal) : JsVal := if toBoolean a then a else b.

(** Own-property lookup in an object. *)
Fixpoint lookup (props : AnyObjectT) (key : string) : option JsVal :=
  match props with
  | [] => None
  | (k, v) :: rest => if String.eqb k key then Some v else lookup rest key
  end.

(** [obj.key] for one of the keys [body] and [query], which
    [Object.prototype] does not define: the own property or [undefined]. *)
Definition getField (obj : AnyObjectT) (key : string) : JsVal :=
  match lookup obj key with
  | Some v => v
  | None => JUndefined
  end.

Definition hasOwnProperty (obj : AnyObjectT) (key : string) : bool :=
  match lookup obj key with
  | Some _ => true
  | None => false
  end.

(** The names every object inherits from [Object.prototype]. *)
Definition objectPrototypeNames : list string :=
  [ "constructor"; "toString"; "toLocaleString"; "valueOf"; "hasOwnProperty";
    "isPrototypeOf"; "propertyIsEnumerable"; "__proto__"; "__defineGetter__";
    "__defineSetter__"; "__lookupGetter__"; "__lookupSetter__" ].

(** [v[key]] for a computed key. Reading a property of [undefined] or [null]
    throws; a plain object yields its own property, or [undefined] when the
    name is not inherited either. *)
Definition getProperty (v : JsVal) (key : string) : Outcome JsVal :=
  match v with
  | JUndefined | JNull => Throw "TypeError: cannot read properties of undefined or null"
  | JObj props =>
      match lookup props key with
      | Some x => Normal x
      | None =>
          if existsb (String.eqb key) objectPrototypeNames
          then Unmodelled "property inherited from Object.prototype"
          else Normal JUndefined
      end
  | _ => Unmodelled "property of a primitive, an array or a host object"
  end.

(** [Object.entries(v)]. *)
Fixpoint indexed (i : Z) (items : list JsVal) : list (string * JsVal) :=
  match items with
  | [] => []
  | x :: rest => (numberToString i, x) :: indexed (i + 1) rest
  end.

Fixpoint stringUnits (s : string) : list JsVal :=
  match s with
  | EmptyString => []
  | String c rest => JStr (chr c) :: stringUnits rest
  end.

Definition Object_entries (v : JsVal) : Outcome (list (string * JsVal)) :=
  match v with
  | JUndefined | JNull => Throw "TypeError: cannot convert undefined or null to object"
  | JObj props => Normal props
  | JArr items => Normal (indexed 0 items)
  | JStr s => Normal (indexed 0 (stringUnits s))
  | JBool _ | JNum _ | JHost _ => Normal []
  end.

(** ** [encodeURIComponent]

    A code unit is kept when it is unreserved, and otherwise replaced by the
    percent-escapes of the bytes of its UTF-8 encoding: one byte below 128,
    two bytes from 128 to 255. *)

Definition hexDigitUpper (n : N) : ascii :=
  if N.ltb n 10 then ascii_of_N (48 + n) else ascii_of_N (55 + n).

Definition percentEscape (byte : N) : string :=
  String "%" (String (hexDigitUpper (N.div byte 16))
                     (String (hexDigitUpper (N.modulo byte 16)) EmptyString)).

Definition isUnreserved (c : ascii) : bool :=
  (isAlnum c || charIn c "-_.!~*'()")%bool.

Definition encodeUnit (c : ascii) : string :=
  if isUnreserved c then chr c
  else if N.ltb (code c) 128 then percentEscape (code c)
  else percentEscape (192 + N.div (code c) 64)
       ++ percentEscape (128 + N.modulo (code c) 64).

Fixpoint encodeURIComponent (s : string) : string :=
  match s with
  | EmptyString => EmptyString
  | String c rest => encodeUnit c ++ encodeURIComponent rest
  end.

(** ** [JSON.stringify] *)

Definition hexDigitLower (n : N) : ascii :=
  if N.ltb n 10 then ascii_of_N (48 + n) else ascii_of_N (87 + n).

Definition escapeUnit (c : ascii) : string :=
  if Ascii.eqb c dquote then String backslash (chr dquote)
  else if Ascii.eqb c backslash then String backslash (chr backslash)
  else if N.eqb (code c) 8 then String backslash "b"
  else if N.eqb (code c) 9 then String backslash "t"
  else if N.eqb (code c) 10 then String backslash "n"
  else if N.eqb (code c) 12 then String backslash "f"
  else if N.eqb (code c) 13 then String backslash "r"
  else if N.ltb (code c) 32
       then String backslash
              (String "u" (String "0" (String "0"
                 (String (hexDigitLower (N.div (code c) 16))
                         (chr (hexDigitLower (N.modulo (code c) 16)))))))
  else chr c.

Fixpoint escapeUnits (s : string) : string :=
  match s with
  | EmptyString => EmptyString
  | String c rest => escapeUnit c ++ escapeUnits rest
  end.

Definition quoteJSONString (s : string) : string :=
  String dquote (escapeUnits s ++ chr dquote).

(** [None] stands for the result [undefined]. Inside an array [undefined]
    prints as [null]; inside an object the property is left out. *)
Fixpoint JSON_stringify (v : JsVal) : option string :=
  match v with
  | JUndefined => None
  | JNull => Some "null"
  | JBool true => Some "true"
  | JBool false => Some "false"
  | JNum n => Some (numberToString n)
  | JStr s => Some (quoteJSONString s)
  | JArr items =>
      Some ("[" ++ String.concat ","
                     (map (fun x => match JSON_stringify x with
                                    | Some t => t
                                    | None => "null"
                                    end) items) ++ "]")
  | JObj props =>
      Some ("{" ++ String.concat ","
                     (flat_map (fun kv => match kv with
                                          | (k, x) =>
                                              match JSON_stringify x with
                                              | Some t => [quoteJSONString k ++ ":" ++ t]
                                              | None => []
                                              end
                                          end) props) ++ "}")
  | JHost _ => Some "{}"
  end.

(** ** [String.prototype.match] with a string argument

    [final.match(p)] with a string [p] compiles [p] as a regular expression
    (without flags). The fragment modelled here: pattern characters, which
    stand for themselves, and the assertions [^] and [$]. A pattern that
    opens with a braced quantifier has nothing to repeat and is a syntax
    error. Every other construct is outside the model. *)

Inductive PatternItem : Type :=
| Lit (c : ascii)
| AssertStart
| AssertEnd.

Fixpoint dropDigits (s : string) : string :=
  match s with
  | EmptyString => EmptyString
  | String c rest => if isDigit c then dropDigits rest else s
  end.

Definition closesBrace (s : string) : bool :=
  match s with
  | String c _ => Ascii.eqb c "}"
  | EmptyString => false
  end.

(** [s] is the text after an opening brace: digits, then an optional comma
    and optional digits, then the closing brace. *)
Definition startsQuantifier (s : string) : bool :=
  match s with
  | EmptyString => false
  | String c _ =>
      if isDigit c then
        match dropDigits s with
        | EmptyString => false
        | String d rest =>
            if Ascii.eqb d "}" then true
            else if Ascii.eqb d "," then closesBrace (dropDigits rest)
            else false
        end
      else false
  end.

(** The syntax characters other than the two assertions and the braces. *)
Definition isOperatorChar (c : ascii) : bool :=
  charIn c (String backslash ".*+?()[|").

Fixpoint compilePattern (atStart : bool) (src : string) : Outcome (list PatternItem) :=
  match src with
  | EmptyString => Normal []
  | String c rest =>
      if isOperatorChar c then Unmodelled "regular expression operator"
      else if (Ascii.eqb c "{" && startsQuantifier rest)%bool then
        if atStart then Throw "SyntaxError: nothing to repeat"
        else Unmodelled "braced quantifier"
      else
        items <- compilePattern false rest ;;
        Normal ((if Ascii.eqb c "^" then AssertStart
                 else if Ascii.eqb c "$" then AssertEnd
                 else Lit c) :: items)
  end.

(** [matchHere items s atStart]: the items match a prefix of [s], where
    [atStart] tells whether [s] is the whole input. *)
Fixpoint matchHere (items : list PatternItem) (s : string) (atStart : bool) : bool :=
  match items with
  | [] => true
  | Lit c :: rest =>
      match s with
      | String d s' => (Ascii.eqb c d && matchHere rest s' false)%bool
      | EmptyString => false
      end
  | AssertStart :: rest => (atStart && matchHere rest s atStart)%bool
  | AssertEnd :: rest => (isEmptyString s && matchHere rest s atStart)%bool
  end.

Fixpoint searchFrom (items : list PatternItem) (s : string) (atStart : bool) : bool :=
  (matchHere items s atStart
   || match s with
      | EmptyString => false
      | String _ rest => searchFrom items rest false
      end)%bool.

(** Whether [final.match(pattern)] is truthy (a match array, not [null]). *)
Definition stringMatch (final pattern : string) : Outcome bool :=
  items <- compilePattern true pattern ;;
  Normal (searchFrom items final true).

(** ** [String.prototype.replace] with a string pattern

    The first occurrence of the pattern is replaced. In the replacement text
    [$$] stands for a dollar sign, [$&] for the matched text, and the dollar
    followed by a backquote or a quote for the text before or after the
    match; there are no capture groups, so any other dollar stands for
    itself. *)

Fixpoint expandReplacement (matched before after repl : string) : string :=
  match repl with
  | EmptyString => EmptyString
  | String c rest =>
      match rest with
      | EmptyString => chr c
      | String d rest' =>
          if Ascii.eqb c "$" then
            if Ascii.eqb d "$" then "$" ++ expandReplacement matched before after rest'
            else if Ascii.eqb d "&" then matched ++ expandReplacement matched before after rest'
            else if Ascii.eqb d "`" then before ++ expandReplacement matched before after rest'
            else if Ascii.eqb d "'" then after ++ expandReplacement matched before after rest'
            else String c (expandReplacement matched before after rest)
          else String c (expandReplacement matched before after rest)
      end
  end.

Definition stringReplace (target pattern replacement : string) : string :=
  match splitFirst pattern target with
  | Some (before, after) =>
      before ++ expandReplacement pattern before after replacement ++ after
  | None => target
  end.

(** * The request factory *)

Inductive DataTypeKeyT : Type := json | text | blob | formData.

Definition STRING_OPTIONS_MAP (key : DataTypeKeyT) : string :=
  match key with
  | json => "application/json"
  | text => "text/plain"
  | blob => "application/octet-stream"
  | formData => "multipart/form-data"
  end.

(** A [Headers] object: the pairs appended to it, in order. *)
Definition Headers : Type := list (string * string).

Definition Headers_append (headers : Headers) (name value : string) : Headers :=
  (headers ++ [(name, value)])%list.

(** The values appended under a name. *)
Definition headerValues (name : string) (headers : Headers) : list string :=
  map snd (filter (fun nv => String.eqb (fst nv) name) headers).

(** The endpoint descriptor. A field that the literal leaves out is
    [undefined], here [None]. *)
Module OptionsT.
Record t : Type := mk {
  name : option string;
  baseUrl : option string;
  path : option string;
  usesAccessToken : option bool;
  usesIdToken : option bool;
  acceptType : option DataTypeKeyT;
  contentType : option DataTypeKeyT;
  method : option string;
  prefer : option string
}.
End OptionsT.

(** The part of the options that [createUrl] declares and reads. *)
Module CreateUrlOptionsT.
Record t : Type := mk {
  baseUrl : option string;
  path : option string
}.
End CreateUrlOptionsT.

(** An [OptionsT] object passed where a [CreateUrlOptionsT] is expected. *)
Definition asCreateUrlOptions (options : OptionsT.t) : CreateUrlOptionsT.t :=
  CreateUrlOptionsT.mk (OptionsT.baseUrl options) (OptionsT.path options).

Module CreateRequestOptionsT.
Record t : Type := mk {
  headers : Headers;
  method : option string;
  url : string;
  body : option string
}.
End CreateRequestOptionsT.

(** [new Request(url, requestOptions)]: the URL and the three attributes of
    the [RequestInit]; [body] is [None] when the attribute is not set. *)
Module Request.
Record t : Type := mk {
  url : string;
  method : option string;
  headers : Headers;
  body : option string
}.
End Request.

(** A response: its status code and what each of the four body decoders
    settles to ([Throw] for a rejected promise). *)
Module Response.
Record t : Type := mk {
  status : Z;
  json : Outcome JsVal;
  text : Outcome JsVal;
  blob : Outcome JsVal;
  formData : Outcome JsVal
}.
End Response.

Module ServiceOutputT.
Record t : Type := mk {
  error : JsVal;
  data : JsVal;
  response : Response.t
}.
End ServiceOutputT.

Definition ResponseProcessorType : Type := Response.t -> Outcome JsVal.

Definition RESPONSE_PROCESSORS (key : DataTypeKeyT) : ResponseProcessorType :=
  match key with
  | json => fun response => Response.json response
  | text => fun response => Response.text response
  | blob => fun response => Response.blob response
  | formData => fun response => Response.formData response
  end.

(** Truthiness of an optional string: present and not empty. *)
Definition truthyString (o : option string) : bool :=
  match o with
  | Some s => negb (isEmptyString s)
  | None => false
  end.

(** [a || b] on optional strings. *)
Definition orString (a b : option string) : option string :=
  if truthyString a then a else b.

(** [a || b] on a flag that may be [undefined]. *)
Definition orBool (a : option bool) (b : bool) : option bool :=
  match a with
  | Some true => Some true
  | _ => Some b
  end.

(** [a || b] on a data type key: a key that is present is a non-empty
    string. *)
Definition orKey (a : option DataTypeKeyT) (b : DataTypeKeyT) : option DataTypeKeyT :=
  match a with
  | Some key => Some key
  | None => Some b
  end.

(** [a === 'literal'] on an optional string. *)
Definition strictEquals (a : option string) (literal : string) : bool :=
  match a with
  | Some s => String.eqb s literal
  | None => false
  end.

(** [String(x)] for a string that may be [undefined], and one that may be
    [null]. *)
Definition undefinedOr (o : option string) : string :=
  match o with
  | Some s => s
  | None => "undefined"
  end.

Definition nullOr (o : option string) : string :=
  match o with
  | Some s => s
  | None => "null"
  end.

(** [value.replace(/{(\w+)}/g, (_, key) => query[key])].

    The scan keeps in [pending] the word characters read since an opening
    brace that may still start a token. A closing brace after at least one
    word character completes the token, which is replaced by the string
    form of [query[key]]; anything else turns the pending text into literal
    output. *)
Fixpoint renderTokens (query : JsVal) (pending : option string) (s : string)
  : Outcome string :=
  match s with
  | EmptyString =>
      Normal (match pending with
              | Some w => "{" ++ w
              | None => EmptyString
              end)
  | String c rest =>
      match pending with
      | None =>
          if Ascii.eqb c "{" then renderTokens query (Some EmptyString) rest
          else
            out <- renderTokens query None rest ;;
            Normal (String c out)
      | Some w =>
          if isWordChar c then renderTokens query (Some (w ++ chr c)) rest
          else if (Ascii.eqb c "}" && negb (isEmptyString w))%bool then
            value <- getProperty query w ;;
            out <- renderTokens query None rest ;;
            Normal (jsToString value ++ out)
          else if Ascii.eqb c "{" then
            out <- renderTokens query (Some EmptyString) rest ;;
            Normal ("{" ++ w ++ out)
          else
            out <- renderTokens query None rest ;;
            Normal ("{" ++ w ++ chr c ++ out)
      end
  end.

Definition handlePreferHeader (value : string) (query : JsVal) : Outcome string :=
  renderTokens query None value.

(** [encodeQuery] (lines 120-124). *)
Definition encodeQuery (entries : list (string * JsVal)) : list (string * string) :=
  map (fun entry => match entry with
                    | (key, value) => (key, encodeURIComponent (jsToString value))
                    end) entries.

(** [injectVariable] (lines 132-134). *)
Definition injectVariable (target key value : string) : string :=
  stringReplace target ("{" ++ key ++ "}") value.

(** [handleQueryPiece] (lines 136-140). *)
Definition handleQueryPiece (final : string) (piece : string * string) : Outcome string :=
  match piece with
  | (key, value) =>
      hasPieceMatch <- stringMatch final ("{" ++ key ++ "}") ;;
      let queryString := final ++ "&" ++ key ++ "=" ++ value in
      Normal (if hasPieceMatch then injectVariable final key value else queryString)
  end.

(** [entries.reduce(f, initial)]. *)
Fixpoint reduce (f : string -> string * string -> Outcome string)
    (entries : list (string * string)) (accumulator : string) : Outcome string :=
  match entries with
  | [] => Normal accumulator
  | entry :: rest =>
      next <- f accumulator entry ;;
      reduce f rest next
  end.

(** [options.baseUrl + options.path]: a concatenation as soon as one side is
    a string; the sum of two [undefined] is the number [NaN]. *)
Definition concatenate (a b : option string) : Outcome string :=
  match a, b with
  | None, None => Unmodelled "undefined + undefined is not a string"
  | _, _ => Normal (undefinedOr a ++ undefinedOr b)
  end.

(** [createUrl] (lines 142-155). *)
Definition createUrl (options : CreateUrlOptionsT.t) (input : InputT) : Outcome string :=
  initialUrl <- concatenate (CreateUrlOptionsT.baseUrl options)
                            (CreateUrlOptionsT.path options) ;;
  queryEntries <- Object_entries (getField input "query") ;;
  let encodedQueryEntries := encodeQuery queryEntries in
  reduce handleQueryPiece encodedQueryEntries initialUrl.

(** [prepareInput] (lines 157-172). *)
Definition prepareInput (options : OptionsT.t) (input : InputT) : InputT :=
  if (negb (toBoolean (getField input "body"))
      && negb (toBoolean (getField input "query")))%bool
  then
    let (query, body) :=
      if strictEquals (OptionsT.method options) "GET"
      then (JObj input, emptyObject)
      else (emptyObject, JObj input) in
    [("query", query); ("body", body)]
  else
    [("body", jsOr (getField input "body") emptyObject);
     ("query", jsOr (getField input "query") emptyObject)].

(** [createRequest] (lines 87-97): the body attribute is set only when the
    text is truthy. *)
Definition createRequest (configuration : CreateRequestOptionsT.t) : Request.t :=
  Request.mk (CreateRequestOptionsT.url configuration)
             (CreateRequestOptionsT.method configuration)
             (CreateRequestOptionsT.headers configuration)
             (if truthyString (CreateRequestOptionsT.body configuration)
              then CreateRequestOptionsT.body configuration
              else None).

(** [getResponseProcessor] (lines 116-118); [None] when the key is
    [undefined]. *)
Definition getResponseProcessor (options : OptionsT.t) : option ResponseProcessorType :=
  option_map RESPONSE_PROCESSORS (OptionsT.acceptType options).

Section Factory.

(** The [is-empty] package. *)
Variable isEmpty : JsVal -> bool.

(** [sessionStorage.getItem]. *)
Variable sessionStorage_getItem : string -> option string.

(** [process.env.AUTH_URL]. *)
Variable AUTH_URL : option string.

(** The transport. *)
Variable fetch : Request.t -> Outcome Response.t.

(** [createHeaders] (lines 60-81). *)
Definition createHeaders (options : OptionsT.t) (input : InputT) : Outcome Headers :=
  let accessToken := sessionStorage_getItem "accessToken" in
  let idToken := sessionStorage_getItem "idToken" in
  let contentType := option_map STRING_OPTIONS_MAP (OptionsT.contentType options) in
  let acceptType := option_map STRING_OPTIONS_MAP (OptionsT.acceptType options) in
  let headers : Headers := [] in
  let headers :=
    Headers_append headers "Content-Type"
      (if strictEquals (OptionsT.method options) "get"
       then "x-www-form-urlencoded"
       else undefinedOr contentType) in
  let headers := Headers_append headers "Accept" (undefinedOr acceptType) in
  let headers :=
    if truthyString accessToken
    then Headers_append
           (Headers_append headers "Authorization" ("Bearer " ++ nullOr accessToken))
           "x-id-token" (nullOr idToken)
    else headers in
  if truthyString (OptionsT.prefer options)
  then
    prefer <- handlePreferHeader (undefinedOr (OptionsT.prefer options))
                                 (getField input "query") ;;
    Normal (Headers_append headers "Prefer" prefer)
  else Normal headers.

(** [createBody] (lines 83-85). *)
Definition createBody (input : InputT) : option string :=
  if isEmpty (getField input "body") then None
  else JSON_stringify (getField input "body").

(** [prepareOptions] (lines 101-114). The object literal lists eight
    fields; [prefer] is not among them. *)
Definition prepareOptions (options : OptionsT.t) : OptionsT.t :=
  OptionsT.mk
    (OptionsT.name options)
    (orString (OptionsT.baseUrl options) AUTH_URL)
    (orString (OptionsT.path options) (Some EmptyString))
    (orBool (OptionsT.usesAccessToken options) true)
    (orBool (OptionsT.usesIdToken options) true)
    (orKey (OptionsT.acceptType options) json)
    (orKey (OptionsT.contentType options) json)
    (orString (OptionsT.method options) (Some "POST"))
    None.

(** The request a call builds: the body of the asynchronous function of
    [createServiceCall] up to [createRequest] (lines 178-190). *)
Definition serviceRequest (preparedOptions : OptionsT.t) (input : InputT)
  : Outcome Request.t :=
  let preparedInput := prepareInput preparedOptions input in
  headers <- createHeaders preparedOptions preparedInput ;;
  url <- createUrl (asCreateUrlOptions preparedOptions) preparedInput ;;
  let body := createBody preparedInput in
  let requestOptions :=
    CreateRequestOptionsT.mk headers (OptionsT.method preparedOptions) url body in
  Normal (createRequest requestOptions).

(** The asynchronous function of [createServiceCall] (lines 177-203):
    [Normal] when the promise resolves, [Throw] when it rejects. *)
Definition serviceCall (preparedOptions : OptionsT.t) (input : InputT)
  : Outcome ServiceOutputT.t :=
  request <- serviceRequest preparedOptions input ;;
  response <- fetch request ;;
  match getResponseProcessor preparedOptions with
  | None => Throw "TypeError: processor is not a function"
  | Some processor =>
      output <- processor response ;;
      let error := if Z.gtb (Response.status response) 399 then output else JNull in
      let data := if Z.ltb (Response.status response) 400 then output else JNull in
      Normal (ServiceOutputT.mk error data response)
  end.

(** [createServiceCall] (lines 174-204). *)
Definition createServiceCall (options : OptionsT.t) : InputT -> Outcome ServiceOutputT.t :=
  let preparedOptions := prepareOptions options in
  fun input => serviceCall preparedOptions input.

(** [createService] logs the call and asserts on the console; neither
    changes the result. *)
Definition createService (options : OptionsT.t) : InputT -> Outcome ServiceOutputT.t :=
  let serviceCall := createServiceCall options in
  fun input => serviceCall input.

End Factory.

(** ** The endpoint registry ([src/services.ts]) *)

Definition descriptor (name baseUrl path method : string)
    (usesAccessToken usesIdToken : bool) (acceptType contentType : DataTypeKeyT)
    (prefer : option string) : OptionsT.t :=
  OptionsT.mk (Some name) (Some baseUrl) (Some path)
              (Some usesAccessToken) (Some usesIdToken)
              (Some acceptType) (Some contentType) (Some method) prefer.

Definition getCustomersOptions : OptionsT.t :=
  descriptor "getCustomers" "https://example.com" "/api/customers/{customerId}"
             "GET" true true json json (Some "example=populated").

Definition getCustomerProfileOptions : OptionsT.t :=
  descriptor "getCustomerProfile" "https://example.com"
             "/api/customers/{customerId}/location/{locationId}"
             "GET" true true json json (Some "example={customerId}").

Definition editCustomerProfileOptions : OptionsT.t :=
  descriptor "editCustomerProfile" "https://example.com" "/api/customers/{customerId}"
             "PATCH" true true json json (Some "example={customerId}").

Definition logInOptions : OptionsT.t :=
  descriptor "logIn" "https://example.com" "/api/login"
             "POST" false false json json None.

Definition logOutOptions : OptionsT.t :=
  descriptor "logOut" "https://example.com" "/api/logout"
             "POST" true true json json None.

Definition requestPasswordResetOptions : OptionsT.t :=
  descriptor "requestPasswordReset" "https://example.com" "/api/password-reset/request"
             "POST" false false text json None.


(** ** An emptiness check: the [is-empty] package on plain data

    [undefined], [null], [0], the empty string, the empty array and the
    object without own properties are empty; booleans and host objects such
    as [Blob] and [FormData] are not. The check looks at the value itself,
    not inside its members. *)
Definition is_empty (val : JsVal) : bool :=
  match val with
  | JUndefined | JNull => true
  | JBool _ => false
  | JNum n => Z.eqb n 0
  | JStr s => isEmptyString s
  | JArr [] => true
  | JArr (_ :: _) => false
  | JObj [] => true
  | JObj (_ :: _) => false
  | JHost _ => false
  end.

(** ** Sample surroundings, used to run the factory on concrete inputs *)

Definition emptyStorage : string -> option string := fun _ => None.

Definition storageWith (accessToken idToken : option string) : string -> option string :=
  fun key =>
    if String.eqb key "accessToken" then accessToken
    else if String.eqb key "idToken" then idToken
    else None.

(** A response whose body is JSON text that parses to [payload]. *)
Definition jsonResponse (status : Z) (payload : JsVal) : Response.t :=
  Response.mk status (Normal payload)
              (Normal (JStr (match JSON_stringify payload with
                             | Some t => t
                             | None => EmptyString
                             end)))
              (Normal (JHost "Blob"))
              (Throw "TypeError: the body is not form data").

Definition respondWith (response : Response.t) : Request.t -> Outcome Response.t :=
  fun _ => Normal response.

(** ** Notions used to state the properties *)


(** The payloads [{msg: "not found"}] and [{id: 1}]. *)
Definition notFoundPayload : JsVal := JObj [("msg", JStr "not found")].

Definition foundPayload : JsVal := JObj [("id", JNum 1)].

(** The two token headers, present when the stored access token is truthy. *)
Definition tokenHeaders (getItem : string -> option string) : Headers :=
  if truthyString (getItem "accessToken")
  then [("Authorization", "Bearer " ++ nullOr (getItem "accessToken"));
        ("x-id-token", nullOr (getItem "idToken"))]
  else [].

(** The normaliser as the specification words it: decided by the presence of
    the keys [query] and [body]. *)
Definition normalizedByKeyPresence (options : OptionsT.t) (input : InputT) : Prop :=
  let prepared := prepareInput options input in
  if (hasOwnProperty input "query" || hasOwnProperty input "body")%bool
  then
    getField prepared "query"
    = (if hasOwnProperty input "query" then getField input "query" else emptyObject)
    /\ getField prepared "body"
       = (if hasOwnProperty input "body" then getField input "body" else emptyObject)
  else if strictEquals (OptionsT.method options) "GET"
  then getField prepared "query" = JObj input /\ getField prepared "body" = emptyObject
  else getField prepared "query" = emptyObject /\ getField prepared "body" = JObj input.

(** A character that the pattern compiler takes as a literal wherever it
    stands: no operator, no assertion, no opening brace. *)
Definition isPatternChar (c : ascii) : bool :=
  negb (isOperatorChar c || charIn c "^${")%bool.

Fixpoint allChars (p : ascii -> bool) (s : string) : bool :=
  match s with
  | EmptyString => true
  | String c rest => (p c && allChars p rest)%bool
  end.

(** A plain key: pattern characters only, and not the body of a braced
    quantifier (digits, optionally a comma, optionally more digits). *)
Definition plainKey (key : string) : bool :=
  (allChars isPatternChar key && negb (startsQuantifier (key ++ "}")))%bool.

(** The pattern that matches [s] literally. *)
Fixpoint literals (s : string) : list PatternItem :=
  match s with
  | EmptyString => []
  | String c rest => Lit c :: literals rest
  end.

(** The step of the builder as its comment describes it: fill the first
    literal token, or append the entry behind an ampersand. *)
Definition fillOrAppend (final : string) (piece : string * string) : string :=
  match piece with
  | (key, value) =>
      match splitFirst ("{" ++ key ++ "}") final with
      | Some (before, after) => before ++ value ++ after
      | None => final ++ "&" ++ key ++ "=" ++ value
      end
  end.

(** A character that [encodeURIComponent] leaves as it is, or the percent
    sign that opens an escape. *)
Definition isUrlSafe (c : ascii) : bool := (isUnreserved c || Ascii.eqb c "%")%bool.

(** The text an entry adds when it is appended. *)
Definition appendedEntry (entry : string * string) : string :=
  "&" ++ fst entry ++ "=" ++ snd entry.

(** A key of decimal digits, such as the index of an array element. *)
Definition digitKey (key : string) : bool :=
  (negb (isEmptyString key) && allChars isDigit key)%bool.

(** The items of a pattern without operators and braced quantifiers. *)
Fixpoint patternItems (s : string) : list PatternItem :=
  match s with
  | EmptyString => []
  | String c rest =>
      (if Ascii.eqb c "^" then AssertStart
       else if Ascii.eqb c "$" then AssertEnd
       else Lit c) :: patternItems rest
  end.

(** A key with one of the assertion characters [^] and [$], and otherwise
    only characters that stand for themselves. *)
Definition assertionKey (key : string) : bool :=
  (allChars (fun c => negb (isOperatorChar c || Ascii.eqb c "{")) key
   && (charIn "^" key || charIn "$" key)
   && negb (startsQuantifier (key ++ "}")))%bool.



(** The decoder key a call uses: the declared one, or [json]. *)
Definition decoderKey (options : OptionsT.t) : DataTypeKeyT :=
  match OptionsT.acceptType options with
  | Some key => key
  | None => json
  end.

(** * Properties *)

(** ** Outcomes *)

Lemma bind_Normal_inv {A B : Type} (m : Outcome A) (k : A -> Outcome B) (b : B) :
  bind m k = Normal b -> exists a, m = Normal a /\ k a = Normal b.
Proof.
  destruct m as [a | e | w]; simpl; intros H; try discriminate.
  exists a; split; [reflexivity | exact H].
Qed.

(** ** Response classification *)




(** Status 404 with payload [{msg: "not found"}]. *)
Example classification_404 :
  createServiceCall is_empty emptyStorage None
    (respondWith (jsonResponse 404 notFoundPayload)) logInOptions []
  = Normal (ServiceOutputT.mk notFoundPayload JNull (jsonResponse 404 notFoundPayload)).
Proof. vm_compute. reflexivity. Qed.

(** Status 200 with payload [{id: 1}]. *)
Example classification_200 :
  createServiceCall is_empty emptyStorage None
    (respondWith (jsonResponse 200 foundPayload)) logInOptions []
  = Normal (ServiceOutputT.mk JNull foundPayload (jsonResponse 200 foundPayload)).
Proof. vm_compute. reflexivity. Qed.




(** ** Header assembly *)

Lemma strictEquals_spec (a : option string) (literal : string) :
  strictEquals a literal = true <-> a = Some literal.
Proof.
  destruct a as [s |]; simpl.
  - rewrite String.eqb_eq. split; [intros -> | intros [= ->]]; reflexivity.
  - split; discriminate.
Qed.


(** The headers a successful assembly returns: the two content negotiation
    headers, the token headers, and the rendered [Prefer] header when the
    options carry a truthy template. *)
Lemma createHeaders_shape getItem options input headers :
  createHeaders getItem options input = Normal headers ->
  exists preferHeaders,
    headers
    = (("Content-Type",
        if strictEquals (OptionsT.method options) "get"
        then "x-www-form-urlencoded"
        else undefinedOr (option_map STRING_OPTIONS_MAP (OptionsT.contentType options)))
       :: ("Accept", undefinedOr (option_map STRING_OPTIONS_MAP (OptionsT.acceptType options)))
       :: tokenHeaders getItem ++ preferHeaders)%list
    /\ ((truthyString (OptionsT.prefer options) = false /\ preferHeaders = [])
        \/ (truthyString (OptionsT.prefer options) = true
            /\ exists rendered,
                 handlePreferHeader (undefinedOr (OptionsT.prefer options))
                                    (getField input "query") = Normal rendered
                 /\ preferHeaders = [("Prefer", rendered)])).
Proof.
  unfold createHeaders, tokenHeaders, Headers_append.
  destruct (truthyString (OptionsT.prefer options)) eqn:Hprefer; intros H.
  - apply bind_Normal_inv in H. destruct H as [rendered [Hrender H]].
    injection H as <-.
    exists [("Prefer", rendered)]. split.
    + destruct (truthyString (getItem "accessToken")); reflexivity.
    + right. split; [reflexivity |]. exists rendered. split; [exact Hrender | reflexivity].
  - injection H as <-. exists []. split.
    + destruct (truthyString (getItem "accessToken")); reflexivity.
    + left. split; reflexivity.
Qed.

Lemma STRING_OPTIONS_MAP_not_urlencoded (key : DataTypeKeyT) :
  STRING_OPTIONS_MAP key <> "x-www-form-urlencoded".
Proof. destruct key; discriminate. Qed.

(** C7. The [Content-Type] header is the urlencoded marker exactly when the
    method is the lowercase string [get] (so never for the uppercase [GET]),
    and otherwise the MIME string of [contentType]; the [Accept] header is
    the MIME string of [acceptType]. *)
Theorem content_negotiation_headers :
  forall getItem options input headers contentKey acceptKey,
    OptionsT.contentType options = Some contentKey ->
    OptionsT.acceptType options = Some acceptKey ->
    createHeaders getItem options input = Normal headers ->
    exists contentType,
      headerValues "Content-Type" headers = [contentType]
      /\ (contentType = "x-www-form-urlencoded" <-> OptionsT.method options = Some "get")
      /\ (OptionsT.method options <> Some "get" ->
          contentType = STRING_OPTIONS_MAP contentKey)
      /\ (OptionsT.method options = Some "GET" ->
          contentType = STRING_OPTIONS_MAP contentKey)
      /\ headerValues "Accept" headers = [STRING_OPTIONS_MAP acceptKey].
Proof.
  intros getItem options input headers contentKey acceptKey Hcontent Haccept H.
  apply createHeaders_shape in H.
  destruct H as [preferHeaders [-> Hprefer]].
  rewrite Hcontent, Haccept. simpl option_map. simpl undefinedOr.
  assert (Hrest : forall name,
             name = "Content-Type" \/ name = "Accept" ->
             headerValues name (tokenHeaders getItem ++ preferHeaders)%list = []).
  { intros name Hname. unfold tokenHeaders.
    destruct Hprefer as [[_ ->] | [_ [rendered [_ ->]]]];
      destruct (truthyString (getItem "accessToken"));
      destruct Hname as [-> | ->]; reflexivity. }
  exists (if strictEquals (OptionsT.method options) "get"
          then "x-www-form-urlencoded" else STRING_OPTIONS_MAP contentKey).
  unfold headerValues in *. simpl filter. simpl map.
  rewrite (Hrest "Content-Type" (or_introl eq_refl)).
  rewrite (Hrest "Accept" (or_intror eq_refl)).
  destruct (strictEquals (OptionsT.method options) "get") eqn:Hget.
  - apply strictEquals_spec in Hget.
    repeat split; try reflexivity; try (intros; assumption).
    + intros Hne. exfalso. apply Hne. exact Hget.
    + intros Hupper. rewrite Hupper in Hget. discriminate.
  - assert (Hne : OptionsT.method options <> Some "get").
    { intros Heq. apply strictEquals_spec in Heq. rewrite Heq in Hget. discriminate. }
    repeat split; try reflexivity.
    + intros Heq. exfalso. exact (STRING_OPTIONS_MAP_not_urlencoded _ Heq).
    + intros Heq. exfalso. exact (Hne Heq).
Qed.

Lemma content_negotiation_headers_witness :
  exists contentType,
    headerValues "Content-Type"
      [("Content-Type", "application/json"); ("Accept", "text/plain")] = [contentType]
    /\ (contentType = "x-www-form-urlencoded"
        <-> OptionsT.method requestPasswordResetOptions = Some "get")
    /\ (OptionsT.method requestPasswordResetOptions <> Some "get" ->
        contentType = STRING_OPTIONS_MAP json)
    /\ (OptionsT.method requestPasswordResetOptions = Some "GET" ->
        contentType = STRING_OPTIONS_MAP json)
    /\ headerValues "Accept"
         [("Content-Type", "application/json"); ("Accept", "text/plain")]
       = [STRING_OPTIONS_MAP text].
Proof.
  apply (content_negotiation_headers emptyStorage requestPasswordResetOptions []
           [("Content-Type", "application/json"); ("Accept", "text/plain")] json text);
    reflexivity.
Defined.

(** A descriptor that declares the lowercase method gets the marker. *)
Example content_type_lowercase_get :
  createHeaders emptyStorage
    (descriptor "probe" "https://example.com" "/api" "get" true true json json None) []
  = Normal [("Content-Type", "x-www-form-urlencoded"); ("Accept", "application/json")].
Proof. reflexivity. Qed.

(** The registry's [GET] descriptors do not. *)
Example content_type_uppercase_get :
  createHeaders emptyStorage
    (descriptor "probe" "https://example.com" "/api" "GET" true true json json None) []
  = Normal [("Content-Type", "application/json"); ("Accept", "application/json")].
Proof. reflexivity. Qed.




(** ** Prepared options *)

Lemma orString_idempotent (a b : option string) :
  orString (orString a b) b = orString a b.
Proof.
  unfold orString. destruct (truthyString a) eqn:Ha.
  - rewrite Ha. reflexivity.
  - destruct (truthyString b); reflexivity.
Qed.

Lemma prepareOptions_idempotent AUTH_URL options :
  prepareOptions AUTH_URL (prepareOptions AUTH_URL options) = prepareOptions AUTH_URL options.
Proof.
  unfold prepareOptions. simpl. rewrite !orString_idempotent.
  destruct (OptionsT.usesAccessToken options) as [[|] |];
    destruct (OptionsT.usesIdToken options) as [[|] |];
    destruct (OptionsT.acceptType options);
    destruct (OptionsT.contentType options); reflexivity.
Qed.

Lemma orString_falsy (a b : option string) :
  a = None \/ a = Some EmptyString -> orString a b = b.
Proof. intros [-> | ->]; reflexivity. Qed.

Lemma orString_truthy (s : string) (b : option string) :
  s <> EmptyString -> orString (Some s) b = Some s.
Proof. destruct s; [intros H; exfalso; apply H |]; reflexivity. Qed.

(** C10. The options a call uses are the prepared ones: both token flags are
    true whatever the descriptor says, falsy fields take their defaults,
    present fields are kept, and the [prefer] template is not carried
    over. *)
Theorem prepared_options_used_by_call :
  forall isEmpty getItem AUTH_URL fetch options,
    let prepared := prepareOptions AUTH_URL options in
    (forall input,
        createServiceCall isEmpty getItem AUTH_URL fetch options input
        = createServiceCall isEmpty getItem AUTH_URL fetch prepared input)
    /\ OptionsT.usesAccessToken prepared = Some true
    /\ OptionsT.usesIdToken prepared = Some true
    /\ OptionsT.prefer prepared = None
    /\ OptionsT.name prepared = OptionsT.name options
    /\ (OptionsT.method options = None \/ OptionsT.method options = Some EmptyString ->
        OptionsT.method prepared = Some "POST")
    /\ (forall m, OptionsT.method options = Some m -> m <> EmptyString ->
                  OptionsT.method prepared = Some m)
    /\ (OptionsT.acceptType options = None -> OptionsT.acceptType prepared = Some json)
    /\ (forall key, OptionsT.acceptType options = Some key ->
                    OptionsT.acceptType prepared = Some key)
    /\ (OptionsT.contentType options = None -> OptionsT.contentType prepared = Some json)
    /\ (forall key, OptionsT.contentType options = Some key ->
                    OptionsT.contentType prepared = Some key)
    /\ (OptionsT.baseUrl options = None \/ OptionsT.baseUrl options = Some EmptyString ->
        OptionsT.baseUrl prepared = AUTH_URL)
    /\ (forall url, OptionsT.baseUrl options = Some url -> url <> EmptyString ->
                    OptionsT.baseUrl prepared = Some url)
    /\ (OptionsT.path options = None \/ OptionsT.path options = Some EmptyString ->
        OptionsT.path prepared = Some EmptyString)
    /\ (forall p, OptionsT.path options = Some p -> p <> EmptyString ->
                  OptionsT.path prepared = Some p).
Proof.
  intros isEmpty getItem AUTH_URL fetch options prepared.
  split.
  { intros input. unfold createServiceCall, prepared.
    rewrite prepareOptions_idempotent. reflexivity. }
  subst prepared. unfold prepareOptions. simpl.
  repeat split.
  - destruct (OptionsT.usesAccessToken options) as [[|] |]; reflexivity.
  - destruct (OptionsT.usesIdToken options) as [[|] |]; reflexivity.
  - apply orString_falsy.
  - intros m ->. apply orString_truthy.
  - intros ->. reflexivity.
  - intros key ->. reflexivity.
  - intros ->. reflexivity.
  - intros key ->. reflexivity.
  - apply orString_falsy.
  - intros url ->. apply orString_truthy.
  - apply orString_falsy.
  - intros p ->. apply orString_truthy.
Qed.

(** The [logIn] descriptor declares both flags false; they are prepared as
    true. The [getCustomerProfile] descriptor declares a [prefer] template;
    its prepared options have none. *)
Lemma prepared_options_used_by_call_witness :
  OptionsT.usesAccessToken logInOptions = Some false
  /\ OptionsT.usesAccessToken (prepareOptions None logInOptions) = Some true
  /\ OptionsT.prefer getCustomerProfileOptions = Some "example={customerId}"
  /\ OptionsT.prefer (prepareOptions None getCustomerProfileOptions) = None.
Proof.
  split; [reflexivity |]. split.
  - exact (proj1 (proj2 (prepared_options_used_by_call
                           is_empty emptyStorage None (fun _ => Throw "offline")
                           logInOptions))).
  - split; [reflexivity |].
    exact (proj1 (proj2 (proj2 (proj2 (prepared_options_used_by_call
                                         is_empty emptyStorage None
                                         (fun _ => Throw "offline")
                                         getCustomerProfileOptions))))).
Defined.

(** ** The [Prefer] header *)

(** No call sends a [Prefer] header: the headers are assembled from the
    prepared options, which have no template. *)
Lemma call_sends_no_prefer isEmpty getItem AUTH_URL options input request :
  serviceRequest isEmpty getItem (prepareOptions AUTH_URL options) input = Normal request ->
  headerValues "Prefer" (Request.headers request) = [].
Proof.
  unfold serviceRequest. intros H.
  apply bind_Normal_inv in H. destruct H as [headers [Hheaders H]].
  apply bind_Normal_inv in H. destruct H as [url [_ H]].
  injection H as <-. simpl.
  apply createHeaders_shape in Hheaders.
  destruct Hheaders as [preferHeaders [-> [[_ ->] | [Habs _]]]].
  - unfold tokenHeaders. destruct (truthyString (getItem "accessToken")); reflexivity.
  - simpl in Habs. discriminate.
Qed.

(** C2: the code at the [getCustomerProfile] descriptor with input
    [{customerId: 5}]. The request of the call has no [Prefer] header, while
    the header assembler, given the descriptor itself, renders the template
    to [example=5] and attaches it. *)
Theorem prefer_template_lost_in_call :
  serviceRequest is_empty emptyStorage
    (prepareOptions None getCustomerProfileOptions) [("customerId", JNum 5)]
  = Normal (Request.mk "https://example.com/api/customers/5/location/{locationId}"
                       (Some "GET")
                       [("Content-Type", "application/json");
                        ("Accept", "application/json")]
                       None)
  /\ createHeaders emptyStorage getCustomerProfileOptions
       (prepareInput getCustomerProfileOptions [("customerId", JNum 5)])
     = Normal [("Content-Type", "application/json");
               ("Accept", "application/json");
               ("Prefer", "example=5")].
Proof. split; vm_compute; reflexivity. Qed.

(** The templater on its own: a token whose key the query lacks renders as
    the text [undefined]. *)
Example prefer_template_missing_key :
  handlePreferHeader "example={customerId}" (JObj [("locationId", JNum 7)])
  = Normal "example=undefined".
Proof. reflexivity. Qed.

(** ** Input normalisation *)

(** C6, as stated, fails: a flat bag of parameters for a [POST] endpoint
    that has a field named [query] holding the empty string. The key is
    there, but the value is falsy, so the whole bag becomes the body. *)
Lemma falsy_query_key_not_authoritative :
  hasOwnProperty [("query", JStr EmptyString); ("page", JNum 1)] "query" = true
  /\ getField (prepareInput logInOptions [("query", JStr EmptyString); ("page", JNum 1)])
              "body"
     = JObj [("query", JStr EmptyString); ("page", JNum 1)]
  /\ ~ normalizedByKeyPresence logInOptions
         [("query", JStr EmptyString); ("page", JNum 1)].
Proof.
  split; [reflexivity |]. split; [reflexivity |].
  unfold normalizedByKeyPresence. simpl. intros [_ H]. discriminate H.
Qed.

Lemma prepareInput_fields options input :
  (hasOwnProperty (prepareInput options input) "query" = true
   /\ hasOwnProperty (prepareInput options input) "body" = true)
  /\ getField (prepareInput options input) "query"
     = (if (negb (toBoolean (getField input "body"))
            && negb (toBoolean (getField input "query")))%bool
        then if strictEquals (OptionsT.method options) "GET"
             then JObj input else emptyObject
        else jsOr (getField input "query") emptyObject)
  /\ getField (prepareInput options input) "body"
     = (if (negb (toBoolean (getField input "body"))
            && negb (toBoolean (getField input "query")))%bool
        then if strictEquals (OptionsT.method options) "GET"
             then emptyObject else JObj input
        else jsOr (getField input "body") emptyObject).
Proof.
  unfold prepareInput.
  destruct (negb (toBoolean (getField input "body"))
            && negb (toBoolean (getField input "query")))%bool;
    [destruct (strictEquals (OptionsT.method options) "GET") |];
    repeat split; reflexivity.
Qed.

Lemma prepareInput_truthy options input :
  toBoolean (getField (prepareInput options input) "query") = true
  /\ toBoolean (getField (prepareInput options input) "body") = true.
Proof.
  destruct (prepareInput_fields options input) as [_ [-> ->]].
  unfold jsOr.
  destruct (toBoolean (getField input "body")) eqn:Hbody;
    destruct (toBoolean (getField input "query")) eqn:Hquery;
    destruct (strictEquals (OptionsT.method options) "GET");
    simpl; rewrite ?Hbody, ?Hquery; split; reflexivity.
Qed.

(** C6, amended. The prepared input always has a [query] and a [body], both
    truthy. When the raw [query] or [body] property is truthy, each of the
    two is used if truthy and replaced by the empty mapping if not. When
    neither is truthy, the whole raw input becomes [query] for the method
    [GET] and [body] for every other method, the other one being empty. *)
Theorem input_normalized_by_truthiness :
  forall options input,
    let prepared := prepareInput options input in
    let rawQuery := getField input "query" in
    let rawBody := getField input "body" in
    (hasOwnProperty prepared "query" = true /\ hasOwnProperty prepared "body" = true)
    /\ (toBoolean (getField prepared "query") = true
        /\ toBoolean (getField prepared "body") = true)
    /\ (toBoolean rawQuery = true \/ toBoolean rawBody = true ->
        getField prepared "query" = (if toBoolean rawQuery then rawQuery else emptyObject)
        /\ getField prepared "body" = (if toBoolean rawBody then rawBody else emptyObject))
    /\ (toBoolean rawQuery = false -> toBoolean rawBody = false ->
        OptionsT.method options = Some "GET" ->
        getField prepared "query" = JObj input /\ getField prepared "body" = emptyObject)
    /\ (toBoolean rawQuery = false -> toBoolean rawBody = false ->
        OptionsT.method options <> Some "GET" ->
        getField prepared "query" = emptyObject /\ getField prepared "body" = JObj input).
Proof.
  intros options input prepared rawQuery rawBody.
  destruct (prepareInput_fields options input) as [Hkeys [Hq Hb]].
  fold prepared in Hkeys, Hq, Hb. fold rawQuery in Hq, Hb. fold rawBody in Hq, Hb.
  split; [exact Hkeys |].
  rewrite Hq, Hb. clear Hkeys Hq Hb.
  assert (Hget : strictEquals (OptionsT.method options) "GET" = true
                 <-> OptionsT.method options = Some "GET")
    by apply strictEquals_spec.
  unfold jsOr.
  destruct (toBoolean rawQuery) eqn:Hquery; destruct (toBoolean rawBody) eqn:Hbody;
    destruct (strictEquals (OptionsT.method options) "GET");
    simpl; rewrite ?Hquery, ?Hbody;
    intuition (try discriminate; try reflexivity).
Qed.

(** The raw input [{customerId: 5}] goes to [query] for a [GET] descriptor. *)
Lemma input_normalized_by_truthiness_witness :
  getField (prepareInput getCustomersOptions [("customerId", JNum 5)]) "query"
  = JObj [("customerId", JNum 5)]
  /\ getField (prepareInput getCustomersOptions [("customerId", JNum 5)]) "body"
     = emptyObject.
Proof.
  apply (proj1 (proj2 (proj2 (proj2 (input_normalized_by_truthiness
                                       getCustomersOptions [("customerId", JNum 5)])))));
    reflexivity.
Defined.

(** The same raw input goes to [body] for a [POST] descriptor. *)
Example flat_input_routed_to_body :
  prepareInput logInOptions [("customerId", JNum 5)]
  = [("query", emptyObject); ("body", JObj [("customerId", JNum 5)])].
Proof. reflexivity. Qed.

(** ** Body serialisation *)






(** The body [{}] is empty for the [is-empty] package: no body attribute. *)
Example empty_body_not_sent :
  serviceRequest is_empty emptyStorage (prepareOptions None logInOptions) []
  = Normal (Request.mk "https://example.com/api/login" (Some "POST")
                       [("Content-Type", "application/json");
                        ("Accept", "application/json")]
                       None).
Proof. vm_compute. reflexivity. Qed.

(** The body [{a: 1}] is sent as the JSON text of that object. *)
Example body_sent_as_json :
  createBody is_empty
    (prepareInput (prepareOptions None logInOptions) [("body", JObj [("a", JNum 1)])])
  = Some ("{" ++ chr dquote ++ "a" ++ chr dquote ++ ":1}").
Proof. vm_compute. reflexivity. Qed.

(** ** The URL builder *)

(** C9. With an empty query mapping the builder returns the base URL
    followed by the path, for every base URL and path. *)
Theorem createUrl_empty_query :
  forall baseUrl path input,
    getField input "query" = emptyObject ->
    createUrl (CreateUrlOptionsT.mk (Some baseUrl) (Some path)) input
    = Normal (baseUrl ++ path).
Proof.
  intros baseUrl path input Hquery.
  unfold createUrl. simpl. rewrite Hquery. reflexivity.
Qed.

Lemma createUrl_empty_query_witness :
  createUrl (CreateUrlOptionsT.mk (Some "https://example.com") (Some "/api/logout"))
            [("query", emptyObject); ("body", emptyObject)]
  = Normal ("https://example.com" ++ "/api/logout").
Proof.
  apply (createUrl_empty_query "https://example.com" "/api/logout"
           [("query", emptyObject); ("body", emptyObject)]).
  reflexivity.
Defined.

(** The example of the specification: a placeholder is filled, the other
    entry is appended behind an ampersand, its value percent-encoded. *)
Example createUrl_placeholder_and_append :
  createUrl (CreateUrlOptionsT.mk (Some "https://example.com") (Some "/api/x/{id}"))
            [("query", JObj [("id", JNum 5); ("foo", JStr "a b")])]
  = Normal "https://example.com/api/x/5&foo=a%20b".
Proof. vm_compute. reflexivity. Qed.

(** C4: the code at the path [/api/x/{$id}] with the query [{$id: 5}]. The
    seed contains the literal token, but [match] reads the token as a
    regular expression in which the dollar sign is an end-of-input
    assertion, so nothing matches: the token stays and the entry is
    appended. *)
Theorem placeholder_with_dollar_key_not_filled :
  includes "{$id}" ("https://example.com" ++ "/api/x/{$id}") = true
  /\ injectVariable ("https://example.com" ++ "/api/x/{$id}") "$id"
                    (encodeURIComponent (jsToString (JNum 5)))
     = "https://example.com/api/x/5"
  /\ createUrl (CreateUrlOptionsT.mk (Some "https://example.com")
                                      (Some "/api/x/{$id}"))
               [("query", JObj [("$id", JNum 5)])]
     = Normal "https://example.com/api/x/{$id}&$id=5".
Proof. repeat split; vm_compute; reflexivity. Qed.

(** ** The URL builder on keys without regular-expression syntax

    The token of a plain key compiles to a sequence of literals; the
    builder then does what its comment says. *)

Lemma allChars_app p a b :
  allChars p (a ++ b) = (allChars p a && allChars p b)%bool.
Proof.
  induction a as [| c a IH]; simpl; [reflexivity |].
  rewrite IH. apply andb_assoc.
Qed.

Lemma charIn_app c a b : charIn c (a ++ b) = (charIn c a || charIn c b)%bool.
Proof.
  induction a as [| d a IH]; simpl; [reflexivity |].
  rewrite IH. apply orb_assoc.
Qed.

Lemma compilePattern_literals (s : string) :
  allChars isPatternChar s = true ->
  compilePattern false s = Normal (literals s).
Proof.
  induction s as [| c s IH]; simpl; [reflexivity |].
  intros H. apply andb_prop in H. destruct H as [Hc Hs].
  rewrite (IH Hs). clear IH Hs.
  unfold isPatternChar in Hc. simpl charIn in Hc.
  destruct (isOperatorChar c); [discriminate |].
  destruct (Ascii.eqb c "^"); [discriminate |].
  destruct (Ascii.eqb c "$"); [discriminate |].
  destruct (Ascii.eqb c "{"); [discriminate |].
  reflexivity.
Qed.

Lemma compilePattern_token (key : string) :
  plainKey key = true ->
  compilePattern true ("{" ++ key ++ "}") = Normal (literals ("{" ++ key ++ "}")).
Proof.
  unfold plainKey. intros H. apply andb_prop in H. destruct H as [Hchars Hquant].
  apply negb_true_iff in Hquant.
  change ("{" ++ key ++ "}") with (String "{" (key ++ "}")).
  cbn [compilePattern literals].
  change (isOperatorChar "{") with false.
  change (Ascii.eqb "{" "{") with true.
  change (Ascii.eqb "{" "^") with false.
  change (Ascii.eqb "{" "$") with false.
  cbn [andb]. rewrite Hquant.
  rewrite compilePattern_literals; [reflexivity |].
  rewrite allChars_app, Hchars. reflexivity.
Qed.

Lemma matchHere_literals (p s : string) (atStart : bool) :
  matchHere (literals p) s atStart = String.prefix p s.
Proof.
  revert s atStart.
  induction p as [| c p IH]; intros [| d s] atStart; simpl; try reflexivity.
  destruct (ascii_dec c d) as [-> | Hne].
  - rewrite Ascii.eqb_refl. apply IH.
  - apply Ascii.eqb_neq in Hne. rewrite Hne. reflexivity.
Qed.

Lemma searchFrom_literals (p s : string) (atStart : bool) :
  searchFrom (literals p) s atStart = includes p s.
Proof.
  revert atStart. unfold includes.
  induction s as [| c s IH]; intros atStart; cbn [searchFrom splitFirst];
    rewrite matchHere_literals.
  - destruct (String.prefix p EmptyString); reflexivity.
  - rewrite IH.
    destruct (String.prefix p (String c s)); [reflexivity |].
    destruct (splitFirst p s) as [[before after] |]; reflexivity.
Qed.

Lemma stringMatch_token (final key : string) :
  plainKey key = true ->
  stringMatch final ("{" ++ key ++ "}") = Normal (includes ("{" ++ key ++ "}") final).
Proof.
  intros H. unfold stringMatch. rewrite (compilePattern_token key H). cbn [bind].
  rewrite searchFrom_literals. reflexivity.
Qed.

Lemma expandReplacement_other matched before after c rest :
  Ascii.eqb c "$" = false ->
  expandReplacement matched before after (String c rest)
  = String c (expandReplacement matched before after rest).
Proof.
  intros H. destruct rest as [| d rest]; simpl; [reflexivity |].
  rewrite H. reflexivity.
Qed.

Lemma expandReplacement_without_dollar matched before after repl :
  charIn "$" repl = false ->
  expandReplacement matched before after repl = repl.
Proof.
  induction repl as [| c rest IH]; [reflexivity |].
  cbn [charIn]. intros H. apply orb_false_iff in H. destruct H as [Hc Hrest].
  rewrite expandReplacement_other.
  - rewrite (IH Hrest). reflexivity.
  - destruct (Ascii.eqb_spec c "$") as [-> | _]; [discriminate Hc | reflexivity].
Qed.

Lemma encodeUnit_without_dollar (c : ascii) : charIn "$" (encodeUnit c) = false.
Proof.
  destruct c as [[] [] [] [] [] [] [] []]; vm_compute; reflexivity.
Qed.

(** An encoded value never contains a dollar sign, so that it is inserted
    as it is. *)
Lemma encodeURIComponent_without_dollar (s : string) :
  charIn "$" (encodeURIComponent s) = false.
Proof.
  induction s as [| c s IH]; simpl; [reflexivity |].
  rewrite charIn_app, IH, encodeUnit_without_dollar. reflexivity.
Qed.

Lemma handleQueryPiece_plain (final key value : string) :
  plainKey key = true ->
  charIn "$" value = false ->
  handleQueryPiece final (key, value) = Normal (fillOrAppend final (key, value)).
Proof.
  intros Hkey Hvalue. unfold handleQueryPiece, fillOrAppend.
  rewrite (stringMatch_token final key Hkey). cbn [bind].
  unfold includes, injectVariable, stringReplace.
  destruct (splitFirst ("{" ++ key ++ "}") final) as [[before after] |];
    [| reflexivity].
  rewrite (expandReplacement_without_dollar _ _ _ _ Hvalue). reflexivity.
Qed.

Lemma reduce_plain (entries : list (string * JsVal)) (seed : string) :
  forallb (fun entry => plainKey (fst entry)) entries = true ->
  reduce handleQueryPiece (encodeQuery entries) seed
  = Normal (fold_left fillOrAppend (encodeQuery entries) seed).
Proof.
  revert seed.
  induction entries as [| [key value] entries IH]; intros seed H; [reflexivity |].
  simpl in H. apply andb_prop in H. destruct H as [Hkey Hrest].
  cbn [encodeQuery map reduce fold_left].
  rewrite (handleQueryPiece_plain seed key _ Hkey (encodeURIComponent_without_dollar _)).
  cbn [bind]. apply IH. exact Hrest.
Qed.

(** The builder on a query whose keys are all plain: starting from the base
    URL followed by the path, each entry in turn, its value percent-encoded
    and its key as it is, fills the first literal token of its key or is
    appended behind an ampersand. *)
Lemma createUrl_plain_keys (baseUrl path : string) (input : InputT)
    (entries : list (string * JsVal)) :
  getField input "query" = JObj entries ->
  forallb (fun entry => plainKey (fst entry)) entries = true ->
  createUrl (CreateUrlOptionsT.mk (Some baseUrl) (Some path)) input
  = Normal (fold_left fillOrAppend (encodeQuery entries) (baseUrl ++ path)).
Proof.
  intros Hquery Hkeys. unfold createUrl. simpl. rewrite Hquery. simpl.
  apply reduce_plain. exact Hkeys.
Qed.

(** The key [$id] is not plain. *)
Example dollar_key_not_plain : plainKey "$id" = false.
Proof. reflexivity. Qed.

(** Neither is a numeric key: its token reads as a braced quantifier with
    nothing to repeat, and compiling it throws. *)
Example numeric_key_throws :
  plainKey "1" = false
  /\ createUrl (CreateUrlOptionsT.mk (Some "https://example.com") (Some "/api/x/{1}"))
               [("query", JObj [("1", JNum 5)])]
     = Throw "SyntaxError: nothing to repeat".
Proof. split; reflexivity. Qed.

(** * Further properties of the code *)

(** ** Strings *)

Lemma append_empty_r (s : string) : s ++ EmptyString = s.
Proof. induction s as [| c s IH]; simpl; [| rewrite IH]; reflexivity. Qed.

Lemma append_assoc (a b c : string) : (a ++ b) ++ c = a ++ b ++ c.
Proof. induction a as [| d a IH]; simpl; [| rewrite IH]; reflexivity. Qed.

Lemma allChars_charIn (p : ascii -> bool) (c : ascii) (s : string) :
  allChars p s = true -> p c = false -> charIn c s = false.
Proof.
  intros Hall Hc. induction s as [| d s IH]; simpl; [reflexivity |].
  simpl in Hall. apply andb_prop in Hall. destruct Hall as [Hd Hs].
  rewrite (IH Hs), orb_false_r.
  destruct (Ascii.eqb_spec c d) as [-> | _]; [congruence | reflexivity].
Qed.

Lemma prefix_append (p s : string) : String.prefix p (p ++ s) = true.
Proof.
  induction p as [| c p IH]; simpl; [destruct s; reflexivity |].
  destruct (ascii_dec c c) as [_ | Hne]; [exact IH | exfalso; apply Hne; reflexivity].
Qed.

Lemma dropChars_append (p s : string) : dropChars (String.length p) (p ++ s) = s.
Proof. induction p as [| c p IH]; simpl; [reflexivity | exact IH]. Qed.

(** A pattern is not found in a text that lacks its first character. *)
Lemma splitFirst_absent (c : ascii) (p s : string) :
  charIn c s = false -> splitFirst (String c p) s = None.
Proof.
  induction s as [| d s IH]; intros H; [reflexivity |].
  simpl in H. apply orb_false_iff in H. destruct H as [Hd Hs].
  cbn [splitFirst String.prefix].
  destruct (ascii_dec c d) as [-> | _].
  - rewrite Ascii.eqb_refl in Hd. discriminate.
  - rewrite (IH Hs). reflexivity.
Qed.

(** The first occurrence of a pattern behind a text that lacks its first
    character. *)
Lemma splitFirst_found (c : ascii) (p a b : string) :
  charIn c a = false ->
  splitFirst (String c p) (a ++ String c p ++ b) = Some (a, b).
Proof.
  induction a as [| d a IH]; intros H.
  - change (EmptyString ++ String c p ++ b) with (String c p ++ b).
    destruct (String c p ++ b) as [| e rest] eqn:Htext; [discriminate Htext |].
    cbn [splitFirst]. rewrite <- Htext, prefix_append, dropChars_append. reflexivity.
  - simpl in H. apply orb_false_iff in H. destruct H as [Hd Ha].
    change (String d a ++ String c p ++ b) with (String d (a ++ String c p ++ b)).
    cbn [splitFirst String.prefix].
    destruct (ascii_dec c d) as [-> | _].
    + rewrite Ascii.eqb_refl in Hd. discriminate.
    + rewrite (IH Ha). reflexivity.
Qed.

(** ** Encoding of the query *)

Lemma encodeUnit_safe (c : ascii) : allChars isUrlSafe (encodeUnit c) = true.
Proof.
  destruct c as [[] [] [] [] [] [] [] []]; vm_compute; reflexivity.
Qed.

Lemma encodeURIComponent_safe (s : string) :
  allChars isUrlSafe (encodeURIComponent s) = true.
Proof.
  induction s as [| c s IH]; simpl; [reflexivity |].
  rewrite allChars_app, encodeUnit_safe, IH. reflexivity.
Qed.

(** X1. [encodeQuery] keeps the keys, in their order, and turns every value
    into a text made of unreserved characters and percent escapes only. *)
Theorem encodeQuery_keys_kept_values_safe :
  forall entries,
    map fst (encodeQuery entries) = map fst entries
    /\ Forall (fun entry => allChars isUrlSafe (snd entry) = true) (encodeQuery entries).
Proof.
  induction entries as [| [key value] entries [IHkeys IHvalues]]; simpl.
  - split; [reflexivity | constructor].
  - split; [rewrite IHkeys; reflexivity |].
    constructor; [apply encodeURIComponent_safe | exact IHvalues].
Qed.






(** ** The URL builder *)

(** X3. On a query object whose keys are all plain, the builder starts from
    the base URL followed by the path and lets each entry in turn, its
    value percent-encoded, fill the first literal token of its key or,
    without such a token, be appended behind an ampersand. *)
Theorem url_built_entry_by_entry :
  forall baseUrl path input entries,
    getField input "query" = JObj entries ->
    forallb (fun entry => plainKey (fst entry)) entries = true ->
    createUrl (CreateUrlOptionsT.mk (Some baseUrl) (Some path)) input
    = Normal (fold_left fillOrAppend (encodeQuery entries) (baseUrl ++ path)).
Proof.
  intros baseUrl path input entries Hquery Hkeys.
  unfold createUrl. simpl. rewrite Hquery. simpl.
  apply reduce_plain. exact Hkeys.
Qed.

Lemma url_built_entry_by_entry_witness :
  createUrl (CreateUrlOptionsT.mk (Some "https://example.com")
                                  (Some "/api/customers/{customerId}/location/{locationId}"))
            [("query", JObj [("locationId", JNum 7); ("customerId", JNum 5);
                             ("sort", JStr "a/z")])]
  = Normal "https://example.com/api/customers/5/location/7&sort=a%2Fz".
Proof.
  apply (url_built_entry_by_entry "https://example.com"
           "/api/customers/{customerId}/location/{locationId}"
           [("query", JObj [("locationId", JNum 7); ("customerId", JNum 5);
                            ("sort", JStr "a/z")])]
           [("locationId", JNum 7); ("customerId", JNum 5); ("sort", JStr "a/z")]);
    reflexivity.
Defined.

Lemma plainKey_no_brace (key : string) : plainKey key = true -> charIn "{" key = false.
Proof.
  unfold plainKey. intros H. apply andb_prop in H. destruct H as [Hchars _].
  apply (allChars_charIn isPatternChar "{" key Hchars). reflexivity.
Qed.

Lemma urlSafe_no_brace (value : string) :
  allChars isUrlSafe value = true -> charIn "{" value = false.
Proof. intros H. apply (allChars_charIn isUrlSafe "{" value H). reflexivity. Qed.

Lemma fold_fillOrAppend_without_tokens (entries : list (string * string)) (seed : string) :
  charIn "{" seed = false ->
  Forall (fun entry => charIn "{" (fst entry) = false
                       /\ charIn "{" (snd entry) = false) entries ->
  fold_left fillOrAppend entries seed
  = seed ++ String.concat EmptyString (map appendedEntry entries).
Proof.
  intros Hseed Hentries. revert seed Hseed.
  induction Hentries as [| [key value] entries [Hkey Hvalue] _ IH]; intros seed Hseed.
  - simpl. rewrite append_empty_r. reflexivity.
  - cbn [fold_left fillOrAppend]. simpl fst in Hkey. simpl snd in Hvalue.
    change ("{" ++ key ++ "}") with (String "{" (key ++ "}")).
    rewrite (splitFirst_absent "{" (key ++ "}") seed Hseed).
    rewrite IH.
    + cbn [map]. unfold appendedEntry at 2. cbn [fst snd].
      destruct entries as [| next entries].
      * simpl String.concat. rewrite !append_empty_r. reflexivity.
      * cbn [map String.concat]. rewrite !append_assoc. reflexivity.
    + rewrite !charIn_app, Hseed, Hkey, Hvalue. reflexivity.
Qed.

(** X4. When the base URL and the path contain no opening brace and the
    keys are plain, every entry is appended as [&key=value], in order:
    the builder never writes a question mark, and a first parameter is
    introduced by an ampersand like the others. *)
Theorem url_without_tokens_appends_all :
  forall baseUrl path input entries,
    getField input "query" = JObj entries ->
    forallb (fun entry => plainKey (fst entry)) entries = true ->
    charIn "{" (baseUrl ++ path) = false ->
    createUrl (CreateUrlOptionsT.mk (Some baseUrl) (Some path)) input
    = Normal (baseUrl ++ path
              ++ String.concat EmptyString (map appendedEntry (encodeQuery entries))).
Proof.
  intros baseUrl path input entries Hquery Hkeys Hseed.
  unfold createUrl. simpl. rewrite Hquery. simpl.
  rewrite (reduce_plain entries (baseUrl ++ path) Hkeys).
  rewrite fold_fillOrAppend_without_tokens.
  - rewrite append_assoc. reflexivity.
  - exact Hseed.
  - clear Hquery Hseed.
    induction entries as [| [key value] entries IH]; [constructor |].
    simpl in Hkeys. apply andb_prop in Hkeys. destruct Hkeys as [Hkey Hrest].
    constructor; [| exact (IH Hrest)].
    split; [exact (plainKey_no_brace key Hkey) |].
    apply urlSafe_no_brace, encodeURIComponent_safe.
Qed.

Lemma url_without_tokens_appends_all_witness :
  createUrl (CreateUrlOptionsT.mk (Some "https://example.com") (Some "/api/login"))
            [("query", JObj [("user", JStr "a&b"); ("page", JNum 2)])]
  = Normal "https://example.com/api/login&user=a%26b&page=2".
Proof.
  apply (url_without_tokens_appends_all "https://example.com" "/api/login"
           [("query", JObj [("user", JStr "a&b"); ("page", JNum 2)])]
           [("user", JStr "a&b"); ("page", JNum 2)]);
    reflexivity.
Defined.

(** X5. Only the first occurrence of a token is filled: whatever follows it,
    a second occurrence included, stays as it is. *)
Theorem first_token_filled_only :
  forall before after key value,
    plainKey key = true ->
    charIn "{" before = false ->
    handleQueryPiece (before ++ "{" ++ key ++ "}" ++ after)
                     (key, encodeURIComponent value)
    = Normal (before ++ encodeURIComponent value ++ after).
Proof.
  intros before after key value Hkey Hbefore.
  rewrite (handleQueryPiece_plain _ key _ Hkey (encodeURIComponent_without_dollar value)).
  unfold fillOrAppend.
  replace (before ++ "{" ++ key ++ "}" ++ after)
    with (before ++ String "{" (key ++ "}") ++ after)
    by (simpl; rewrite append_assoc; reflexivity).
  change ("{" ++ key ++ "}") with (String "{" (key ++ "}")).
  rewrite (splitFirst_found "{" (key ++ "}") before after Hbefore). reflexivity.
Qed.

Lemma first_token_filled_only_witness :
  handleQueryPiece ("/api/" ++ "{" ++ "id" ++ "}" ++ "/copy/{id}")
                   ("id", encodeURIComponent "a b")
  = Normal ("/api/" ++ encodeURIComponent "a b" ++ "/copy/{id}").
Proof.
  apply (first_token_filled_only "/api/" "/copy/{id}" "id" "a b"); reflexivity.
Defined.

(** X6. Called with an input that has no [query], or a null one, the
    builder throws: [Object.entries] does not accept [undefined] or
    [null]. *)
Theorem createUrl_without_query_throws :
  forall baseUrl path input,
    getField input "query" = JUndefined \/ getField input "query" = JNull ->
    createUrl (CreateUrlOptionsT.mk (Some baseUrl) path) input
    = Throw "TypeError: cannot convert undefined or null to object".
Proof.
  intros baseUrl path input [H | H]; unfold createUrl; simpl; rewrite H; reflexivity.
Qed.

Lemma createUrl_without_query_throws_witness :
  createUrl (CreateUrlOptionsT.mk (Some "https://example.com") (Some "/api/login"))
            [("customerId", JNum 5)]
  = Throw "TypeError: cannot convert undefined or null to object".
Proof.
  apply (createUrl_without_query_throws "https://example.com" (Some "/api/login")
           [("customerId", JNum 5)]).
  left. reflexivity.
Defined.

(** ** Keys that are regular-expression syntax *)

Lemma dropDigits_key (key rest : string) :
  allChars isDigit key = true -> dropDigits (key ++ "}" ++ rest) = "}" ++ rest.
Proof.
  induction key as [| c key IH]; simpl; intros H; [reflexivity |].
  apply andb_prop in H. destruct H as [Hc Hkey]. rewrite Hc. exact (IH Hkey).
Qed.

Lemma startsQuantifier_digits (key : string) :
  digitKey key = true -> startsQuantifier (key ++ "}") = true.
Proof.
  unfold digitKey. intros H. apply andb_prop in H. destruct H as [Hnonempty Hdigits].
  destruct key as [| c key]; [discriminate Hnonempty |].
  unfold startsQuantifier.
  change (String c key ++ "}") with (String c (key ++ "}")).
  pose proof Hdigits as Hall. simpl in Hdigits.
  apply andb_prop in Hdigits. destruct Hdigits as [Hc _]. rewrite Hc.
  change (String c (key ++ "}")) with (String c key ++ "}" ++ EmptyString).
  rewrite (dropDigits_key (String c key) EmptyString Hall). reflexivity.
Qed.

(** X7. A key of decimal digits makes the token test throw, whatever the
    URL: the token reads as a braced quantifier with nothing to repeat. So
    does the builder on any query object whose first key is such a key. *)
Theorem digit_key_throws :
  forall key,
    digitKey key = true ->
    (forall final value,
        handleQueryPiece final (key, value) = Throw "SyntaxError: nothing to repeat")
    /\ (forall baseUrl path input value rest,
           getField input "query" = JObj ((key, value) :: rest) ->
           createUrl (CreateUrlOptionsT.mk (Some baseUrl) (Some path)) input
           = Throw "SyntaxError: nothing to repeat").
Proof.
  intros key Hkey.
  assert (Hpiece : forall final value,
             handleQueryPiece final (key, value) = Throw "SyntaxError: nothing to repeat").
  { intros final value. unfold handleQueryPiece, stringMatch.
    change ("{" ++ key ++ "}") with (String "{" (key ++ "}")).
    cbn [compilePattern].
    change (isOperatorChar "{") with false.
    change (Ascii.eqb "{" "{") with true.
    rewrite (startsQuantifier_digits key Hkey). reflexivity. }
  split; [exact Hpiece |].
  intros baseUrl path input value rest Hquery.
  unfold createUrl, concatenate.
  cbn [CreateUrlOptionsT.baseUrl CreateUrlOptionsT.path bind].
  rewrite Hquery. cbn [Object_entries bind encodeQuery map reduce].
  rewrite Hpiece. reflexivity.
Qed.

(** The first element of an array has the key [0]. *)
Lemma digit_key_throws_witness :
  (forall final value,
      handleQueryPiece final ("0", value) = Throw "SyntaxError: nothing to repeat")
  /\ (forall baseUrl path input value rest,
         getField input "query" = JObj (("0", value) :: rest) ->
         createUrl (CreateUrlOptionsT.mk (Some baseUrl) (Some path)) input
         = Throw "SyntaxError: nothing to repeat").
Proof.
  apply (digit_key_throws "0"). reflexivity.
Defined.

Lemma compilePattern_items (s : string) :
  allChars (fun c => negb (isOperatorChar c || Ascii.eqb c "{")) s = true ->
  compilePattern false s = Normal (patternItems s).
Proof.
  induction s as [| c s IH]; simpl; [reflexivity |].
  intros H. apply andb_prop in H. destruct H as [Hc Hs].
  rewrite (IH Hs). clear IH Hs.
  destruct (isOperatorChar c); [discriminate |].
  destruct (Ascii.eqb c "{"); [discriminate |].
  reflexivity.
Qed.

(** The items of a key and the closing brace do not match the empty text. *)
Lemma matchHere_closing_brace_empty (key : string) (atStart : bool) :
  matchHere (patternItems (key ++ "}")) EmptyString atStart = false.
Proof.
  induction key as [| c key IH]; [reflexivity |].
  change (String c key ++ "}") with (String c (key ++ "}")).
  cbn [patternItems].
  destruct (Ascii.eqb c "^"); [cbn [matchHere]; rewrite IH; apply andb_false_r |].
  destruct (Ascii.eqb c "$"); [cbn [matchHere]; rewrite IH; reflexivity |].
  reflexivity.
Qed.

(** Behind the opening brace, a key with an assertion matches nowhere. *)
Lemma matchHere_assertion_fails (key s : string) :
  (charIn "^" key || charIn "$" key)%bool = true ->
  matchHere (patternItems (key ++ "}")) s false = false.
Proof.
  revert s. induction key as [| c key IH]; intros s H; [discriminate H |].
  change (String c key ++ "}") with (String c (key ++ "}")).
  cbn [patternItems]. cbn [charIn] in H.
  rewrite (Ascii.eqb_sym "^" c), (Ascii.eqb_sym "$" c) in H.
  destruct (Ascii.eqb c "^"); [reflexivity |].
  destruct (Ascii.eqb c "$").
  - cbn [matchHere]. destruct s as [| d s]; [| reflexivity].
    rewrite matchHere_closing_brace_empty. reflexivity.
  - cbn [orb] in H. cbn [matchHere]. destruct s as [| d s]; [reflexivity |].
    rewrite (IH s H). apply andb_false_r.
Qed.

Lemma searchFrom_assertion_fails (key s : string) (atStart : bool) :
  (charIn "^" key || charIn "$" key)%bool = true ->
  searchFrom (Lit "{" :: patternItems (key ++ "}")) s atStart = false.
Proof.
  intros H. revert atStart.
  induction s as [| d s IH]; intros atStart; cbn [searchFrom matchHere];
    [reflexivity |].
  rewrite (matchHere_assertion_fails key s H), andb_false_r, IH. reflexivity.
Qed.

(** X8. An entry whose key contains the assertion [^] or [$] is always
    appended, never substituted, even when the URL holds the literal token
    of that key: as a regular expression the token matches nothing. *)
Theorem assertion_key_always_appended :
  forall key value final,
    assertionKey key = true ->
    handleQueryPiece final (key, value) = Normal (final ++ "&" ++ key ++ "=" ++ value).
Proof.
  intros key value final H. unfold assertionKey in H.
  apply andb_prop in H. destruct H as [H Hquant].
  apply andb_prop in H. destruct H as [Hchars Hassert].
  apply negb_true_iff in Hquant.
  unfold handleQueryPiece, stringMatch.
  change ("{" ++ key ++ "}") with (String "{" (key ++ "}")).
  cbn [compilePattern].
  change (isOperatorChar "{") with false.
  change (Ascii.eqb "{" "{") with true.
  change (Ascii.eqb "{" "^") with false.
  change (Ascii.eqb "{" "$") with false.
  cbn [andb]. rewrite Hquant.
  rewrite compilePattern_items.
  - cbn [bind]. rewrite (searchFrom_assertion_fails key final true Hassert). reflexivity.
  - rewrite allChars_app, Hchars. reflexivity.
Qed.

Lemma assertion_key_always_appended_witness :
  handleQueryPiece "https://example.com/odata/items?$top={$top}" ("$top", "10")
  = Normal ("https://example.com/odata/items?$top={$top}" ++ "&" ++ "$top" ++ "=" ++ "10").
Proof.
  apply (assertion_key_always_appended "$top" "10"
           "https://example.com/odata/items?$top={$top}").
  reflexivity.
Defined.

(** ** The [Prefer] templater *)

Lemma renderTokens_literal (query : JsVal) (text rest : string) :
  charIn "{" text = false ->
  renderTokens query None (text ++ rest)
  = (out <- renderTokens query None rest ;; Normal (text ++ out)).
Proof.
  induction text as [| c text IH]; intros H.
  - simpl. destruct (renderTokens query None rest); reflexivity.
  - cbn [charIn] in H. apply orb_false_iff in H. destruct H as [Hc Htext].
    rewrite Ascii.eqb_sym in Hc.
    change (String c text ++ rest) with (String c (text ++ rest)).
    cbn [renderTokens]. rewrite Hc, (IH Htext).
    destruct (renderTokens query None rest); reflexivity.
Qed.

Lemma renderTokens_word (query : JsVal) (key rest pending : string) :
  allChars isWordChar key = true ->
  renderTokens query (Some pending) (key ++ rest)
  = renderTokens query (Some (pending ++ key)) rest.
Proof.
  revert pending. induction key as [| c key IH]; intros pending H.
  - simpl. rewrite append_empty_r. reflexivity.
  - simpl in H. apply andb_prop in H. destruct H as [Hc Hkey].
    change (String c key ++ rest) with (String c (key ++ rest)).
    cbn [renderTokens]. rewrite Hc, (IH _ Hkey).
    unfold chr. rewrite append_assoc. reflexivity.
Qed.

(** X9. A template without an opening brace is returned as it is, whatever
    the query, a missing one included. *)
Theorem prefer_without_token_unchanged :
  forall value query,
    charIn "{" value = false ->
    handlePreferHeader value query = Normal value.
Proof.
  intros value query H. unfold handlePreferHeader.
  rewrite <- (append_empty_r value) at 1.
  rewrite (renderTokens_literal query value EmptyString H).
  simpl. rewrite append_empty_r. reflexivity.
Qed.

Lemma prefer_without_token_unchanged_witness :
  handlePreferHeader "example=populated" JUndefined = Normal "example=populated".
Proof.
  apply (prefer_without_token_unchanged "example=populated" JUndefined). reflexivity.
Defined.

(** X10. The first token of a template, a non-empty word between braces, is
    replaced by the string form of [query[key]], and the templater goes on
    behind it; when reading [query[key]] throws, as it does for a query
    that is [undefined] or [null], the templater throws. *)
Theorem prefer_token_rendered :
  forall before key after query,
    charIn "{" before = false ->
    allChars isWordChar key = true ->
    key <> EmptyString ->
    handlePreferHeader (before ++ "{" ++ key ++ "}" ++ after) query
    = (value <- getProperty query key ;;
       rest <- handlePreferHeader after query ;;
       Normal (before ++ jsToString value ++ rest)).
Proof.
  intros before key after query Hbefore Hkey Hnonempty. unfold handlePreferHeader.
  rewrite (renderTokens_literal query before _ Hbefore).
  change ("{" ++ key ++ "}" ++ after) with (String "{" (key ++ String "}" after)).
  cbn [renderTokens]. change (Ascii.eqb "{" "{") with true. cbv iota.
  rewrite (renderTokens_word query key _ EmptyString Hkey).
  change (EmptyString ++ key) with key.
  cbn [renderTokens].
  change (isWordChar "}") with false. change (Ascii.eqb "}" "}") with true.
  destruct key as [| c key]; [exfalso; apply Hnonempty; reflexivity |].
  cbn [isEmptyString negb andb].
  destruct (getProperty query (String c key)) as [value | e | w]; cbn [bind];
    try reflexivity.
  destruct (renderTokens query None after) as [rest | e | w]; reflexivity.
Qed.

Lemma prefer_token_rendered_witness :
  handlePreferHeader ("example=" ++ "{" ++ "customerId" ++ "}" ++ ";mock")
                     (JObj [("customerId", JNum 5)])
  = Normal "example=5;mock".
Proof.
  apply (prefer_token_rendered "example=" "customerId" ";mock"
           (JObj [("customerId", JNum 5)]));
    [reflexivity | reflexivity | discriminate].
Defined.

(** ** Header assembly, continued *)


(** X11. Without a truthy access token in the session store, neither token
    header is attached: an id token on its own is never sent. *)
Theorem id_token_needs_access_token :
  forall getItem options input headers,
    truthyString (getItem "accessToken") = false ->
    createHeaders getItem options input = Normal headers ->
    headerValues "Authorization" headers = []
    /\ headerValues "x-id-token" headers = [].
Proof.
  intros getItem options input headers Hfalsy H.
  apply createHeaders_shape in H.
  destruct H as [preferHeaders [-> Hprefer]].
  unfold tokenHeaders. rewrite Hfalsy.
  destruct Hprefer as [[_ ->] | [_ [rendered [_ ->]]]]; split; reflexivity.
Qed.

Lemma id_token_needs_access_token_witness :
  headerValues "Authorization"
    [("Content-Type", "application/json"); ("Accept", "application/json")] = []
  /\ headerValues "x-id-token"
       [("Content-Type", "application/json"); ("Accept", "application/json")] = [].
Proof.
  apply (id_token_needs_access_token (storageWith None (Some "id-token")) logOutOptions []
           [("Content-Type", "application/json"); ("Accept", "application/json")]);
    reflexivity.
Defined.



(** ** Prepared options and prepared input, continued *)

(** X13. Preparing prepared options changes nothing. *)
Theorem prepareOptions_twice :
  forall AUTH_URL options,
    prepareOptions AUTH_URL (prepareOptions AUTH_URL options)
    = prepareOptions AUTH_URL options.
Proof.
  intros AUTH_URL options. unfold prepareOptions. simpl.
  rewrite !orString_idempotent.
  destruct (OptionsT.usesAccessToken options) as [[|] |];
    destruct (OptionsT.usesIdToken options) as [[|] |];
    destruct (OptionsT.acceptType options);
    destruct (OptionsT.contentType options); reflexivity.
Qed.

(** X14. Normalising a normalised input changes neither its [query] nor its
    [body], whatever the method of the second descriptor. *)
Theorem prepareInput_twice :
  forall options options' input,
    getField (prepareInput options' (prepareInput options input)) "query"
    = getField (prepareInput options input) "query"
    /\ getField (prepareInput options' (prepareInput options input)) "body"
       = getField (prepareInput options input) "body".
Proof.
  intros options options' input.
  destruct (prepareInput_truthy options input) as [Hquery Hbody].
  destruct (prepareInput_fields options' (prepareInput options input)) as [_ [-> ->]].
  unfold jsOr. rewrite Hquery, Hbody. split; reflexivity.
Qed.

(** ** The request of a call *)








Lemma prepared_acceptType AUTH_URL options :
  OptionsT.acceptType (prepareOptions AUTH_URL options) = Some (decoderKey options).
Proof.
  unfold prepareOptions, decoderKey. simpl.
  destruct (OptionsT.acceptType options); reflexivity.
Qed.





Example call_request_url :
  serviceRequest is_empty emptyStorage (prepareOptions None getCustomersOptions)
                 [("customerId", JNum 5); ("expand", JStr "orders")]
  = Normal (Request.mk "https://example.com/api/customers/5&expand=orders" (Some "GET")
                       [("Content-Type", "application/json");
                        ("Accept", "application/json")]
                       None).
Proof. vm_compute. reflexivity. Qed.



Example patch_placeholder_unfilled :
  serviceRequest is_empty emptyStorage (prepareOptions None editCustomerProfileOptions)
                 [("customerId", JNum 5)]
  = Normal (Request.mk "https://example.com/api/customers/{customerId}" (Some "PATCH")
                       [("Content-Type", "application/json");
                        ("Accept", "application/json")]
                       (Some ("{" ++ chr dquote ++ "customerId" ++ chr dquote ++ ":5}"))).
Proof. vm_compute. reflexivity. Qed.

(** ** The call *)

(** X19. Failures of the transport and of the body decoder are not caught:
    when [fetch] rejects, or when the decoder selected by the accept type
    rejects, the call rejects with the same error. *)
Theorem call_rejections_propagate :
  forall isEmpty getItem AUTH_URL fetch options input request,
    serviceRequest isEmpty getItem (prepareOptions AUTH_URL options) input
    = Normal request ->
    (forall e, fetch request = Throw e ->
               createServiceCall isEmpty getItem AUTH_URL fetch options input = Throw e)
    /\ (forall response e,
           fetch request = Normal response ->
           RESPONSE_PROCESSORS (decoderKey options) response = Throw e ->
           createServiceCall isEmpty getItem AUTH_URL fetch options input = Throw e).
Proof.
  intros isEmpty getItem AUTH_URL fetch options input request Hrequest.
  unfold createServiceCall, serviceCall. rewrite Hrequest. cbn [bind].
  split.
  - intros e Hfetch. rewrite Hfetch. reflexivity.
  - intros response e Hfetch Hdecode. rewrite Hfetch. cbn [bind].
    unfold getResponseProcessor. rewrite prepared_acceptType. cbn [option_map].
    rewrite Hdecode. reflexivity.
Qed.

Lemma call_rejections_propagate_witness :
  createServiceCall is_empty emptyStorage None
    (fun _ => Throw "TypeError: Failed to fetch") logInOptions []
  = Throw "TypeError: Failed to fetch".
Proof.
  apply (proj1 (call_rejections_propagate is_empty emptyStorage None
                  (fun _ => Throw "TypeError: Failed to fetch") logInOptions []
                  (Request.mk "https://example.com/api/login" (Some "POST")
                     [("Content-Type", "application/json");
                      ("Accept", "application/json")]
                     None)
                  eq_refl)).
  reflexivity.
Defined.

(** X20. Once the request is built, the transport has resolved and the
    decoder has resolved, the call resolves whatever the status code, an
    error status included, and hands back the response of the transport
    and the decoded payload; without an accept type the decoder is the
    JSON one. *)
Theorem call_resolves_for_any_status :
  forall isEmpty getItem AUTH_URL fetch options input request response payload,
    serviceRequest isEmpty getItem (prepareOptions AUTH_URL options) input
    = Normal request ->
    fetch request = Normal response ->
    RESPONSE_PROCESSORS (decoderKey options) response = Normal payload ->
    exists out,
      createServiceCall isEmpty getItem AUTH_URL fetch options input = Normal out
      /\ ServiceOutputT.response out = response
      /\ ((ServiceOutputT.error out = payload /\ ServiceOutputT.data out = JNull)
          \/ (ServiceOutputT.error out = JNull /\ ServiceOutputT.data out = payload)).
Proof.
  intros isEmpty getItem AUTH_URL fetch options input request response payload
         Hrequest Hfetch Hdecode.
  unfold createServiceCall, serviceCall. rewrite Hrequest. cbn [bind].
  rewrite Hfetch. cbn [bind].
  unfold getResponseProcessor. rewrite prepared_acceptType. cbn [option_map].
  rewrite Hdecode. cbn [bind].
  eexists. split; [reflexivity |]. split; [reflexivity |].
  cbn [ServiceOutputT.error ServiceOutputT.data].
  destruct (Z.gtb_spec (Response.status response) 399);
    destruct (Z.ltb_spec (Response.status response) 400); try lia;
    [left | right]; split; reflexivity.
Qed.

Lemma call_resolves_for_any_status_witness :
  exists out,
    createServiceCall is_empty emptyStorage None
      (respondWith (jsonResponse 500 notFoundPayload)) logInOptions []
    = Normal out
    /\ ServiceOutputT.response out = jsonResponse 500 notFoundPayload
    /\ ((ServiceOutputT.error out = notFoundPayload /\ ServiceOutputT.data out = JNull)
        \/ (ServiceOutputT.error out = JNull /\ ServiceOutputT.data out = notFoundPayload)).
Proof.
  apply (call_resolves_for_any_status is_empty emptyStorage None
           (respondWith (jsonResponse 500 notFoundPayload)) logInOptions []
           (Request.mk "https://example.com/api/login" (Some "POST")
              [("Content-Type", "application/json"); ("Accept", "application/json")]
              None));
    vm_compute; reflexivity.
Defined.

(** ** The registry *)


